(** * DDS sine generator (dds_sin.ino): shallow embedding and properties

    The program is a direct-digital-synthesis sine generator for an
    ATmega328P.  A 16-bit phase register is advanced by a constant
    increment inside the Timer 2 compare interrupt; the upper eight bits of
    the register index a 256-entry sine table whose entry is written to the
    PWM compare register OCR0A.

    Integers are modelled as [Z] with the wrap-around of each C type written
    out.  Global variables and the registers the program reads back live in
    an explicit [State] record that is threaded through a small
    state-and-failure monad; an array read outside the array is the only
    failure. *)

From Stdlib Require Import ZArith List Lia Bool.
Import ListNotations.
Local Open Scope Z_scope.

(** ** C integer types of the target (avr-gcc: 16-bit int, 32-bit long) *)

Module Cint.

(** Conversion to [uint8_t]. *)
Definition to_uint8 (z : Z) : Z := z mod 256.

(** Conversion to [uint16_t]. *)
Definition to_uint16 (z : Z) : Z := z mod 65536.

Definition LONG_MAX : Z := 2147483647.
Definition LONG_MIN : Z := -2147483648.

(** Reduction into the 32-bit two's-complement range of [long].  ISO C
    leaves signed overflow undefined; the compiler folds the constant
    expression of [main] with this wrap-around. *)
Definition to_long (z : Z) : Z := (z + 2147483648) mod 4294967296 - 2147483648.

(** [a * b] on [long] operands. *)
Definition long_mul (a b : Z) : Z := to_long (a * b).

(** [a / b] on [long] operands: C division truncates toward zero. *)
Definition long_div (a b : Z) : Z := to_long (Z.quot a b).

(** [a + b] on [uint16_t] operands, stored back into a [uint16_t]. *)
Definition uint16_add (a b : Z) : Z := to_uint16 (a + b).

End Cint.

Import Cint.

(** ** Configuration macros *)

(** [#define F_DDS_OUT 2500]: the desired output frequency in Hz. *)
Definition F_DDS_OUT : Z := 2500.

(** [#define F_UPDATE 50000]: the DDS update frequency in Hz. *)
Definition F_UPDATE : Z := 50000.

(** ** The sine table *)

(** The initialiser of [uint8_t SINE_TABLE[]], in source order. *)
Definition SINE_TABLE_init : list Z :=
  [ 128; 131; 134; 137; 140; 143; 146; 149; 152; 156; 159; 162; 165; 168; 171; 174;
    176; 179; 182; 185; 188; 191; 193; 196; 199; 201; 204; 206; 209; 211; 213; 216;
    218; 220; 222; 224; 226; 228; 230; 232; 234; 236; 237; 239; 240; 242; 243; 245;
    246; 247; 248; 249; 250; 251; 252; 252; 253; 254; 254; 255; 255; 255; 255; 255;
    255; 255; 255; 255; 255; 255; 254; 254; 253; 252; 252; 251; 250; 249; 248; 247;
    246; 245; 243; 242; 240; 239; 237; 236; 234; 232; 230; 228; 226; 224; 222; 220;
    218; 216; 213; 211; 209; 206; 204; 201; 199; 196; 193; 191; 188; 185; 182; 179;
    176; 174; 171; 168; 165; 162; 159; 156; 152; 149; 146; 143; 140; 137; 134; 131;
    127; 124; 121; 118; 115; 112; 109; 106; 103; 99; 96; 93; 90; 87; 84; 81;
    79; 76; 73; 70; 67; 64; 62; 59; 56; 54; 51; 49; 46; 44; 42; 39;
    37; 35; 33; 31; 29; 27; 25; 23; 21; 19; 18; 16; 15; 13; 12; 10;
    9; 8; 7; 6; 5; 4; 3; 3; 2; 1; 1; 0; 0; 0; 0; 0;
    0; 0; 0; 0; 0; 0; 1; 1; 2; 3; 3; 4; 5; 6; 7; 8;
    9; 10; 12; 13; 15; 16; 18; 19; 21; 23; 25; 27; 29; 31; 33; 35;
    37; 39; 42; 44; 46; 49; 51; 54; 56; 59; 62; 64; 67; 70; 73; 76;
    79; 81; 84; 87; 90; 93; 96; 99; 103; 106; 109; 112; 115; 118; 121; 124 ].

(** Array subscript: [None] outside the array. *)
Definition table_at (t : list Z) (i : Z) : option Z :=
  if i <? 0 then None else nth_error t (Z.to_nat i).

(** ** Program state *)

(** The globals of the program and the two pieces of machine state it
    drives: the PWM compare register and the global interrupt flag set by
    [sei()].  [SINE_TABLE] is a plain (non-const) array in RAM, so it is part
    of the mutable state.  The port and timer configuration registers written
    by [main] (DDRD, TCCR0A, TCCR0B, TCCR2A, TCCR2B, OCR2A, TIMSK2) are never
    read back by the program and are left out. *)
Record State : Type := mkState {
  SINE_TABLE : list Z;
  phaseReg : Z;
  phaseInc : Z;
  OCR0A : Z;
  SREG_I : bool
}.

Definition set_phaseReg (v : Z) (s : State) : State :=
  mkState (SINE_TABLE s) v (phaseInc s) (OCR0A s) (SREG_I s).

Definition set_phaseInc (v : Z) (s : State) : State :=
  mkState (SINE_TABLE s) (phaseReg s) v (OCR0A s) (SREG_I s).

Definition set_OCR0A (v : Z) (s : State) : State :=
  mkState (SINE_TABLE s) (phaseReg s) (phaseInc s) v (SREG_I s).

Definition set_SREG_I (b : bool) (s : State) : State :=
  mkState (SINE_TABLE s) (phaseReg s) (phaseInc s) (OCR0A s) b.

(** The machine after reset and C start-up: initialised data copied, the
    zero-initialised globals cleared, interrupts disabled. *)
Definition reset_state : State :=
  mkState SINE_TABLE_init 0 0 0 false.

(** ** A state monad with failure *)

Definition M (A : Type) : Type := State -> option (A * State).

Definition ret {A : Type} (a : A) : M A := fun s => Some (a, s).

Definition bind {A B : Type} (c : M A) (k : A -> M B) : M B :=
  fun s => match c s with
           | Some (a, s') => k a s'
           | None => None
           end.

Definition gets {A : Type} (f : State -> A) : M A := fun s => Some (f s, s).

Definition modify (f : State -> State) : M unit := fun s => Some (tt, f s).

Notation "x <- c ;; k" := (bind c (fun x => k))
  (at level 61, c at next level, right associativity).
Notation "c ;;; k" := (bind c (fun _ => k))
  (at level 61, right associativity).

(** [SINE_TABLE[i]]. *)
Definition read_SINE_TABLE (i : Z) : M Z :=
  fun s => match table_at (SINE_TABLE s) i with
           | Some v => Some (v, s)
           | None => None
           end.

(** ** The interrupt service routine *)

(** Line 69: [phaseReg += phaseInc;]. *)
Definition advance : M unit :=
  p <- gets phaseReg ;;
  d <- gets phaseInc ;;
  modify (set_phaseReg (uint16_add p d)).

(** Line 70: [i = (uint8_t)(phaseReg >> 8);]. *)
Definition index : M Z :=
  p <- gets phaseReg ;;
  ret (to_uint8 (Z.shiftr p 8)).

(** [ISR(TIMER2_COMPA_vect)]. *)
Definition ISR_TIMER2_COMPA : M unit :=
  advance ;;;
  i <- index ;;
  v <- read_SINE_TABLE i ;;
  modify (set_OCR0A v).

(** ** Initialisation *)

(** The value of [F_DDS_OUT * 65536 / F_UPDATE] converted to [uint16_t],
    as a function of the two macros.  Product and quotient are formed in
    [long], the type of the literal 65536.  The function stands for the C
    expression where the output frequency is a literal of the [long] range
    and the tick rate is not zero; a wider literal would make the arithmetic
    [long long], and a zero tick rate is a division by zero. *)
Definition phaseInc_expr (f_dds_out f_update : Z) : Z :=
  to_uint16 (long_div (long_mul f_dds_out 65536) f_update).

(** The body of [main] up to and including [sei()], for given values of the
    two macros, within the domain of [phaseInc_expr]. *)
Definition main_init_with (f_dds_out f_update : Z) : M unit :=
  modify (set_OCR0A 0) ;;;
  modify (set_phaseReg 0) ;;;
  modify (set_phaseInc (phaseInc_expr f_dds_out f_update)) ;;;
  modify (set_SREG_I true).

(** [main] with the macros as the source defines them. *)
Definition main_init : M unit := main_init_with F_DDS_OUT F_UPDATE.

(** The running state: interrupts are enabled, ticks are delivered. *)
Definition running (s : State) : Prop := SREG_I s = true.

(** [n] timer interrupts in a row. *)
Fixpoint ticks (n : nat) : M unit :=
  match n with
  | O => ret tt
  | S k => ISR_TIMER2_COMPA ;;; ticks k
  end.

(** [n] executions of line 69 alone. *)
Fixpoint advance_n (n : nat) : M unit :=
  match n with
  | O => ret tt
  | S k => advance ;;; advance_n k
  end.

(** The program: start-up, then [n] interrupts during the idle loop. *)
Definition program (n : nat) : option (unit * State) :=
  (main_init ;;; ticks n) reset_state.

(** The state in which the idle loop is entered. *)
Definition started : State :=
  mkState SINE_TABLE_init 0 3276 0 true.

(** Typing invariant of the state: the array has its 256 elements and the
    two 16-bit globals are in the range of their type. *)
Definition wf_state (s : State) : Prop :=
  length (SINE_TABLE s) = 256%nat /\
  0 <= phaseReg s < 65536 /\
  0 <= phaseInc s < 65536.

(** ** Quantities named by the specification *)

(** Rounding to nearest of the fraction [num / den] ([den > 0]), halves up. *)
Definition round_div (num den : Z) : Z := (2 * num + den) / (2 * den).

(** The specification's increment, [round(F_out * 2^W / F_tick)], [W = 16]. *)
Definition spec_increment (f_out f_tick : Z) : Z := round_div (f_out * 65536) f_tick.

(** The specification's period in ticks, [round(2^W / increment)]. *)
Definition spec_period (inc : Z) : Z := round_div 65536 inc.

(** Mid-scale of the 8-bit output range. *)
Definition mid_scale : Z := 128.

(** Decidable form of: entries [i] and [128 + i] of [t] exist and add up
    to [k]. *)
Definition half_period_sum_is (k : Z) (t : list Z) (i : Z) : bool :=
  match table_at t i, table_at t (128 + i) with
  | Some a, Some b => a + b =? k
  | _, _ => false
  end.

(** ** Peripheral set-up of [main] *)

(** avr-libc's [_BV(bit)], that is [(1 << (bit))]. *)
Definition BV (bit : Z) : Z := Z.shiftl 1 bit.

(** The bit numbers that [main] takes from the device header
    [<avr/io.h>].  The header is not part of the program, so they are a
    parameter of the model. *)
Record IoBits : Type := mkIoBits {
  PORTD6 : Z;
  PORTD5 : Z;
  WGM00 : Z;
  WGM01 : Z;
  COM0A1 : Z;
  CS00 : Z;
  WGM21 : Z;
  CS21 : Z;
  OCIE2A : Z
}.

(** The bit numbers of the ATmega328P. *)
Definition atmega328p : IoBits := mkIoBits 6 5 0 1 7 0 1 1 1.

(** The 8-bit port and timer registers written by lines 81 to 98 of [main],
    OCR0A apart, which is part of [State]. *)
Record Periph : Type := mkPeriph {
  DDRD : Z;
  TCCR0A : Z;
  TCCR0B : Z;
  TCCR2A : Z;
  TCCR2B : Z;
  OCR2A : Z;
  TIMSK2 : Z
}.

(** The value of [(F_CPU / 8 / F_UPDATE - 1)] stored into the 8-bit register
    OCR2A, as a function of the two macros; [F_CPU] comes from the build and
    is a [long]. *)
Definition OCR2A_expr (f_cpu f_update : Z) : Z :=
  to_uint8 (to_long (long_div (long_div f_cpu 8) f_update - 1)).

(** Lines 81 to 98 of [main], in source order, on the registers of
    [Periph]. *)
Definition main_peripherals (io : IoBits) (f_cpu f_update : Z) (p : Periph)
  : Periph :=
  let ddrd := to_uint8 (Z.lor (DDRD p) (Z.lor (BV (PORTD6 io)) (BV (PORTD5 io)))) in
  let tccr0a := to_uint8 (Z.lor (Z.lor (BV (WGM00 io)) (BV (WGM01 io)))
                                (BV (COM0A1 io))) in
  let tccr0b := to_uint8 (BV (CS00 io)) in
  let tccr2a := to_uint8 (BV (WGM21 io)) in
  let tccr2b := to_uint8 (BV (CS21 io)) in
  let ocr2a := OCR2A_expr f_cpu f_update in
  let timsk2 := to_uint8 (BV (OCIE2A io)) in
  mkPeriph ddrd tccr0a tccr0b tccr2a tccr2b ocr2a timsk2.

(** ** Further predicates on states and tables *)

(** Every stored value is in the range of its C type: the invariant
    [wf_state], the 8-bit compare register and the 8-bit table entries. *)
Definition typed_state (s : State) : Prop :=
  wf_state s /\
  0 <= OCR0A s <= 255 /\
  Forall (fun v => 0 <= v <= 255) (SINE_TABLE s).

(** Entry [i] of [t], with -1 standing for a subscript outside [t]. *)
Definition entry (t : list Z) (i : Z) : Z :=
  match table_at t i with
  | Some v => v
  | None => -1
  end.

(** Decidable form of: entries [i] and [(i + 128) mod 256] of [t] exist and
    add up to 255. *)
Definition opposite_is_complement (t : list Z) (i : Z) : bool :=
  match table_at t i, table_at t ((i + 128) mod 256) with
  | Some a, Some b => a + b =? 255
  | _, _ => false
  end.

(** Decidable form of the shape of one sine period at index [i] of [t]:
    the cyclic neighbour differs by at most 4, the entries rise on the
    quarters before and after index 0 and fall in between, and the entry
    mirrored inside the half period is the same. *)
Definition sine_shaped_at (t : list Z) (i : Z) : bool :=
  let next := entry t ((i + 1) mod 256) in
  (Z.abs (next - entry t i) <=? 4)
  && (if (i <? 64) || (192 <=? i) then entry t i <=? next
      else next <=? entry t i)
  && (if (1 <=? i) && (i <=? 127) then entry t i =? entry t (128 - i)
      else true)
  && (if (129 <=? i) && (i <=? 255) then entry t i =? entry t (384 - i)
      else true).

(** ** Sanity checks of the model *)

Example main_init_runs : main_init reset_state = Some (tt, started).
Proof. reflexivity. Qed.

Example spec_increment_configured : spec_increment F_DDS_OUT F_UPDATE = 3277.
Proof. reflexivity. Qed.

Example spec_period_configured : spec_period 3276 = 20.
Proof. reflexivity. Qed.

Example table_length : length SINE_TABLE_init = 256%nat.
Proof. reflexivity. Qed.

(** ** Auxiliary facts: integer conversions *)

Lemma to_uint8_range (z : Z) : 0 <= to_uint8 z < 256.
Proof. unfold to_uint8. apply Z.mod_pos_bound. lia. Qed.

Lemma to_uint16_range (z : Z) : 0 <= to_uint16 z < 65536.
Proof. unfold to_uint16. apply Z.mod_pos_bound. lia. Qed.

Lemma to_uint8_small (z : Z) : 0 <= z < 256 -> to_uint8 z = z.
Proof. intro H. unfold to_uint8. now apply Z.mod_small. Qed.

Lemma to_long_small (z : Z) : LONG_MIN <= z <= LONG_MAX -> to_long z = z.
Proof.
unfold LONG_MIN, LONG_MAX, to_long. intro H.
rewrite Z.mod_small by lia. lia.
Qed.

Lemma shiftr8_range (p : Z) : 0 <= p < 65536 -> 0 <= Z.shiftr p 8 < 256.
Proof.
intro H. rewrite Z.shiftr_div_pow2 by lia. change (2 ^ 8) with 256.
split.
- apply Z.div_pos; lia.
- apply Z.div_lt_upper_bound; lia.
Qed.

Lemma high_byte_small (p : Z) :
  0 <= p < 65536 -> to_uint8 (Z.shiftr p 8) = Z.shiftr p 8.
Proof. intro H. apply to_uint8_small, shiftr8_range, H. Qed.

(** In the range where the product fits a [long], the initialiser of
    [phaseInc] is the floor of the exact quotient, reduced to 16 bits. *)
Lemma phaseInc_expr_floor (f t : Z) :
  0 <= f < 32768 -> 0 < t ->
  phaseInc_expr f t = ((f * 65536) / t) mod 65536.
Proof.
intros Hf Ht. unfold phaseInc_expr, long_div, long_mul, to_uint16.
rewrite (to_long_small (f * 65536)) by (unfold LONG_MIN, LONG_MAX; lia).
rewrite Z.quot_div_nonneg by lia.
assert (Hq : 0 <= f * 65536 / t <= f * 65536).
{ split.
  - apply Z.div_pos; lia.
  - apply Z.div_le_upper_bound; nia. }
rewrite to_long_small by (unfold LONG_MIN, LONG_MAX; lia).
reflexivity.
Qed.

(** ** Auxiliary facts: array reads *)

Lemma table_at_defined (t : list Z) (i : Z) :
  length t = 256%nat -> 0 <= i < 256 -> exists v, table_at t i = Some v.
Proof.
intros Hlen Hi. unfold table_at.
destruct (Z.ltb_spec i 0) as [Hneg | _]; [lia |].
destruct (nth_error t (Z.to_nat i)) as [v |] eqn:E.
- now exists v.
- apply nth_error_None in E. lia.
Qed.

Lemma table_at_in_bounds (t : list Z) (i v : Z) :
  table_at t i = Some v -> 0 <= i < Z.of_nat (length t).
Proof.
unfold table_at. destruct (Z.ltb_spec i 0) as [Hneg | Hpos]; [discriminate |].
intro E. assert (Hsome : nth_error t (Z.to_nat i) <> None) by congruence.
apply nth_error_Some in Hsome. lia.
Qed.

(** ** Auxiliary facts: the handler as one state transformer *)

Lemma advance_eq (s : State) :
  advance s = Some (tt, set_phaseReg (uint16_add (phaseReg s) (phaseInc s)) s).
Proof. reflexivity. Qed.

Lemma index_eq (s : State) :
  index s = Some (to_uint8 (Z.shiftr (phaseReg s) 8), s).
Proof. reflexivity. Qed.

Lemma ISR_eq (s : State) :
  ISR_TIMER2_COMPA s =
  match table_at (SINE_TABLE s)
          (to_uint8 (Z.shiftr (uint16_add (phaseReg s) (phaseInc s)) 8)) with
  | Some v => Some (tt, mkState (SINE_TABLE s)
                          (uint16_add (phaseReg s) (phaseInc s))
                          (phaseInc s) v (SREG_I s))
  | None => None
  end.
Proof.
unfold ISR_TIMER2_COMPA, bind, read_SINE_TABLE, modify, set_OCR0A.
rewrite advance_eq. simpl.
destruct (table_at _ _); reflexivity.
Qed.

Lemma ISR_defined (s : State) :
  length (SINE_TABLE s) = 256%nat ->
  exists v,
    table_at (SINE_TABLE s)
      (to_uint8 (Z.shiftr (uint16_add (phaseReg s) (phaseInc s)) 8)) = Some v /\
    ISR_TIMER2_COMPA s =
      Some (tt, mkState (SINE_TABLE s) (uint16_add (phaseReg s) (phaseInc s))
                  (phaseInc s) v (SREG_I s)).
Proof.
intro Hlen.
destruct (table_at_defined (SINE_TABLE s)
            (to_uint8 (Z.shiftr (uint16_add (phaseReg s) (phaseInc s)) 8)) Hlen
            (to_uint8_range _)) as [v Hv].
exists v. split; [exact Hv |]. rewrite ISR_eq, Hv. reflexivity.
Qed.

(** Any number of interrupts runs to completion and changes neither the
    table, nor the increment, nor the interrupt flag. *)
Lemma ticks_frame (n : nat) : forall s,
  length (SINE_TABLE s) = 256%nat ->
  exists s', ticks n s = Some (tt, s') /\
             SINE_TABLE s' = SINE_TABLE s /\
             phaseInc s' = phaseInc s /\
             SREG_I s' = SREG_I s.
Proof.
induction n as [| k IH]; intros s Hlen.
- exists s. repeat split.
- destruct (ISR_defined s Hlen) as (v & _ & Hisr).
  simpl. unfold bind. rewrite Hisr.
  destruct (IH (mkState (SINE_TABLE s) (uint16_add (phaseReg s) (phaseInc s))
                  (phaseInc s) v (SREG_I s)) Hlen) as (s' & Hrun & Ht & Hi & Hf).
  exists s'. simpl in Ht, Hi, Hf. split; [exact Hrun |].
  split; [exact Ht |]. split; [exact Hi | exact Hf].
Qed.

Lemma program_eq (n : nat) : program n = ticks n started.
Proof. reflexivity. Qed.

(** ** The tick handler *)

(** C6: for every state, line 69 of the handler completes (it has no
    failure case) and leaves [(phaseReg + phaseInc) mod 2^16] in the phase
    register, a value of the 16-bit range.  For operands in the [uint16_t]
    range this is the plain sum when it fits and the sum minus [2^16] when it
    overflows: the register wraps, it does not saturate. *)
Theorem advance_wraps (s : State) :
  exists s',
    advance s = Some (tt, s') /\
    phaseReg s' = (phaseReg s + phaseInc s) mod 2 ^ 16 /\
    0 <= phaseReg s' < 2 ^ 16 /\
    (0 <= phaseReg s < 2 ^ 16 -> 0 <= phaseInc s < 2 ^ 16 ->
     phaseReg s + phaseInc s < 2 ^ 16 ->
     phaseReg s' = phaseReg s + phaseInc s) /\
    (0 <= phaseReg s < 2 ^ 16 -> 0 <= phaseInc s < 2 ^ 16 ->
     2 ^ 16 <= phaseReg s + phaseInc s ->
     phaseReg s' = phaseReg s + phaseInc s - 2 ^ 16).
Proof.
exists (set_phaseReg (uint16_add (phaseReg s) (phaseInc s)) s).
change (2 ^ 16) with 65536.
split; [apply advance_eq |].
simpl. unfold uint16_add, to_uint16.
split; [reflexivity |].
split; [apply Z.mod_pos_bound; lia |].
split; intros Hp Hd Hsum.
- apply Z.mod_small. lia.
- pose proof (Z.mod_small (phaseReg s + phaseInc s - 65536) 65536) as Hm.
  replace (phaseReg s + phaseInc s)
    with (phaseReg s + phaseInc s - 65536 + 1 * 65536) at 1 by lia.
  rewrite Z.mod_add by lia. apply Hm. lia.
Qed.

(** The wrap of C6 on a concrete state: 65000 + 3276 leaves 2740. *)
Lemma advance_wraps_witness :
  exists s',
    advance (mkState SINE_TABLE_init 65000 3276 0 true) = Some (tt, s') /\
    phaseReg s' = 2740.
Proof.
destruct (advance_wraps (mkState SINE_TABLE_init 65000 3276 0 true))
  as (s' & Hrun & _ & _ & _ & Hwrap).
exists s'. split; [exact Hrun |].
simpl in Hwrap. rewrite Hwrap; [reflexivity | lia | lia | lia].
Defined.



(** C7: for every phase value of the 16-bit range the index computed by the
    handler is [phase >> (16 - log2 256)], the upper eight bits of the
    register, and lies in [0, 256); so the table read of the handler is
    inside the 256-entry array on every state, and every interrupt of the
    running program completes. *)
Theorem index_in_bounds :
  (forall s, 0 <= phaseReg s < 2 ^ 16 ->
     exists i, index s = Some (i, s) /\
               i = Z.shiftr (phaseReg s) (16 - Z.log2 256) /\
               i = phaseReg s / 2 ^ 8 /\
               0 <= i < 256) /\
  (forall s, length (SINE_TABLE s) = 256%nat ->
     exists i v s', ISR_TIMER2_COMPA s = Some (tt, s') /\
                    index s' = Some (i, s') /\
                    0 <= i < Z.of_nat (length (SINE_TABLE s)) /\
                    table_at (SINE_TABLE s) i = Some v) /\
  (forall n, exists s', program n = Some (tt, s')).
Proof.
split; [| split].
- intros s Hp. change (2 ^ 16) with 65536 in Hp.
  change (16 - Z.log2 256) with 8.
  exists (Z.shiftr (phaseReg s) 8).
  split; [| split; [| split]].
  + rewrite index_eq, high_byte_small by exact Hp. reflexivity.
  + reflexivity.
  + apply Z.shiftr_div_pow2. lia.
  + apply shiftr8_range, Hp.
- intros s Hlen.
  destruct (ISR_defined s Hlen) as (v & Hv & Hisr).
  exists (to_uint8 (Z.shiftr (uint16_add (phaseReg s) (phaseInc s)) 8)), v.
  eexists. split; [exact Hisr |].
  split; [reflexivity |].
  split; [| exact Hv].
  rewrite Hlen. pose proof (to_uint8_range
    (Z.shiftr (uint16_add (phaseReg s) (phaseInc s)) 8)). lia.
- intro n. rewrite program_eq.
  destruct (ticks_frame n started eq_refl) as (s' & Hrun & _).
  exists s'. exact Hrun.
Qed.

(** C7 at phase 51272 (0xC848): the index is 200 (0xC8). *)
Lemma index_in_bounds_witness :
  exists i,
    index (mkState SINE_TABLE_init 51272 3276 0 true)
      = Some (i, mkState SINE_TABLE_init 51272 3276 0 true) /\
    i = 200.
Proof.
destruct index_in_bounds as (Hidx & _ & _).
destruct (Hidx (mkState SINE_TABLE_init 51272 3276 0 true))
  as (i & Hrun & _ & Hdiv & _).
- simpl. lia.
- exists i. split; [exact Hrun |]. rewrite Hdiv. reflexivity.
Defined.

(** C9: an invocation of the handler changes neither the sine table nor the
    phase increment (nor the interrupt flag): only [phaseReg] and [OCR0A]
    can differ afterwards.  Hence after any number of interrupts of the
    running program the table is still its initialiser and the increment
    still the value stored by [main]. *)
Theorem ISR_preserves_table_and_increment :
  (forall s s', ISR_TIMER2_COMPA s = Some (tt, s') ->
     SINE_TABLE s' = SINE_TABLE s /\
     phaseInc s' = phaseInc s /\
     SREG_I s' = SREG_I s) /\
  (forall n, exists s',
     program n = Some (tt, s') /\
     SINE_TABLE s' = SINE_TABLE_init /\
     phaseInc s' = phaseInc started).
Proof.
split.
- intros s s' Hisr. rewrite ISR_eq in Hisr.
  destruct (table_at _ _) as [v |]; [| discriminate].
  injection Hisr as <-. repeat split.
- intro n. rewrite program_eq.
  destruct (ticks_frame n started eq_refl) as (s' & Hrun & Ht & Hi & _).
  exists s'. split; [exact Hrun |]. split; [exact Ht | exact Hi].
Qed.

(** C9 on the first interrupt of the running program. *)
Lemma ISR_preserves_table_and_increment_witness :
  ISR_TIMER2_COMPA started
    = Some (tt, mkState SINE_TABLE_init 3276 3276 165 true) /\
  SINE_TABLE (mkState SINE_TABLE_init 3276 3276 165 true) = SINE_TABLE started /\
  phaseInc (mkState SINE_TABLE_init 3276 3276 165 true) = phaseInc started /\
  SREG_I (mkState SINE_TABLE_init 3276 3276 165 true) = SREG_I started.
Proof.
split; [reflexivity |].
destruct ISR_preserves_table_and_increment as (Hframe & _).
apply (Hframe started (mkState SINE_TABLE_init 3276 3276 165 true)).
reflexivity.
Defined.

(** C10: the handler advances the phase before it reads the table.  On every
    state of the typed range the value written to OCR0A is the table entry at
    [((phaseReg + phaseInc) mod 2^16) >> 8], the index of the phase after the
    advance.  In particular the first interrupt of the running program, which
    starts from phase 0, writes entry [phaseInc >> 8 = 12] of the table, 165,
    and not the mid-scale entry 0, 128. *)
Theorem ISR_lookup_after_advance :
  (forall s, wf_state s ->
     exists s', ISR_TIMER2_COMPA s = Some (tt, s') /\
                table_at (SINE_TABLE s)
                  (Z.shiftr ((phaseReg s + phaseInc s) mod 2 ^ 16) 8)
                  = Some (OCR0A s')) /\
  (exists s1, program 1 = Some (tt, s1) /\
              phaseReg started = 0 /\
              Z.shiftr (phaseInc started) 8 = 12 /\
              table_at SINE_TABLE_init (Z.shiftr (phaseInc started) 8)
                = Some (OCR0A s1) /\
              OCR0A s1 = 165 /\
              table_at SINE_TABLE_init 0 = Some mid_scale /\
              OCR0A s1 <> mid_scale).
Proof.
split.
- intros s (Hlen & _ & _).
  destruct (ISR_defined s Hlen) as (v & Hv & Hisr).
  eexists. split; [exact Hisr |]. simpl.
  rewrite high_byte_small in Hv by apply to_uint16_range.
  exact Hv.
- exists (mkState SINE_TABLE_init 3276 3276 165 true).
  repeat split. unfold mid_scale. simpl. lia.
Qed.

(** C10 at phase 65000: the advance wraps to 2740 and entry 10 is written,
    whereas the index of the phase before the advance is 253. *)
Lemma ISR_lookup_after_advance_witness :
  wf_state (mkState SINE_TABLE_init 65000 3276 0 true) /\
  exists s', ISR_TIMER2_COMPA (mkState SINE_TABLE_init 65000 3276 0 true)
               = Some (tt, s') /\
             table_at SINE_TABLE_init 10 = Some (OCR0A s').
Proof.
assert (Hwf : wf_state (mkState SINE_TABLE_init 65000 3276 0 true)).
{ unfold wf_state. simpl. repeat split; lia. }
split; [exact Hwf |].
destruct ISR_lookup_after_advance as (Hgen & _).
destruct (Hgen _ Hwf) as (s' & Hrun & Hout).
exists s'. split; [exact Hrun | exact Hout].
Defined.

(** ** The phase increment *)

Lemma main_init_with_eq (f t : Z) :
  main_init_with f t reset_state
  = Some (tt, mkState SINE_TABLE_init 0 (phaseInc_expr f t) 0 true).
Proof. reflexivity. Qed.

(** C1, as stated, fails: with the macros of the source [main] stores 3276,
    the truncated quotient, whereas rounding 2500 * 65536 / 50000 = 3276.8
    to nearest gives 3277. *)
Lemma phaseInc_not_rounded :
  exists s,
    main_init reset_state = Some (tt, s) /\
    phaseInc s = 3276 /\
    spec_increment F_DDS_OUT F_UPDATE = 3277 /\
    phaseInc s <> spec_increment F_DDS_OUT F_UPDATE.
Proof.
exists started. repeat split. simpl. discriminate.
Qed.

(** C1, amended: [main] computes the increment by C integer division, which
    truncates.  For an output frequency [f] whose product with 65536 fits a
    [long] and a positive tick rate [t], the stored increment is
    [floor(f * 2^16 / t)] reduced to 16 bits, where the floor [q] satisfies
    [t * q <= f * 2^16 < t * (q + 1)].  For the macros of the source,
    2500 Hz at 50000 Hz, it is 3276. *)
Theorem phaseInc_is_truncated_quotient :
  (forall f t, 0 <= f < 32768 -> 0 < t ->
     exists s,
       main_init_with f t reset_state = Some (tt, s) /\
       phaseInc s = ((f * 2 ^ 16) / t) mod 2 ^ 16 /\
       t * ((f * 2 ^ 16) / t) <= f * 2 ^ 16 < t * ((f * 2 ^ 16) / t + 1)) /\
  (exists s,
     main_init reset_state = Some (tt, s) /\
     phaseInc s = (F_DDS_OUT * 2 ^ 16) / F_UPDATE /\
     phaseInc s = 3276).
Proof.
split.
- intros f t Hf Ht. change (2 ^ 16) with 65536.
  eexists. split; [apply main_init_with_eq |]. simpl.
  split; [apply phaseInc_expr_floor; assumption |].
  pose proof (Z.mul_div_le (f * 65536) t Ht).
  pose proof (Z.mul_succ_div_gt (f * 65536) t Ht).
  lia.
- exists started. repeat split.
Qed.

(** The amended C1 at 1000 Hz and 48000 Hz: 65536000 / 48000 = 1365.33
    gives 1365. *)
Lemma phaseInc_is_truncated_quotient_witness :
  exists s,
    main_init_with 1000 48000 reset_state = Some (tt, s) /\ phaseInc s = 1365.
Proof.
destruct phaseInc_is_truncated_quotient as (Hgen & _).
destruct (Hgen 1000 48000) as (s & Hrun & Hinc & _); [lia | lia |].
exists s. split; [exact Hrun |]. rewrite Hinc. reflexivity.
Defined.

(** C2, as stated, fails: [main] has no check.  A request of 1 Hz at a
    100000 Hz tick rate yields the increment 0, and a request of 30000 Hz at
    a 50000 Hz tick rate lies above half the tick rate; in both cases
    initialisation completes and the running state is entered. *)
Lemma invalid_frequency_accepted :
  (exists s, main_init_with 1 100000 reset_state = Some (tt, s) /\
             phaseInc s = 0 /\ running s) /\
  (exists s, main_init_with 30000 50000 reset_state = Some (tt, s) /\
             50000 < 2 * 30000 /\ phaseInc s = 39321 /\ running s).
Proof.
split.
- exists (mkState SINE_TABLE_init 0 0 0 true). repeat split.
- exists (mkState SINE_TABLE_init 0 39321 0 true). repeat split.
Qed.

(** C2, amended: initialisation validates nothing.  For every output
    frequency of the [long] range, [|f| <= LONG_MAX], and every non-zero tick
    rate [main] stores the computed increment as it is, zero included, clears
    the phase and enters the running state.  The macros of the source happen
    to be a valid configuration: the increment is not zero and the output
    frequency is below half the tick rate. *)
Theorem main_accepts_every_configuration (f t : Z)
  (Hf : - LONG_MAX <= f <= LONG_MAX) (Ht : t <> 0) :
  (exists s,
     main_init_with f t reset_state = Some (tt, s) /\
     running s /\
     phaseInc s = phaseInc_expr f t /\
     phaseReg s = 0 /\
     SINE_TABLE s = SINE_TABLE_init) /\
  phaseInc_expr F_DDS_OUT F_UPDATE <> 0 /\
  2 * F_DDS_OUT < F_UPDATE.
Proof.
split.
- eexists. split; [apply main_init_with_eq |]. repeat split.
- split; [discriminate | reflexivity].
Qed.

(** The amended C2 at 1 Hz and 100000 Hz: the increment zero is stored and
    the running state entered. *)
Lemma main_accepts_every_configuration_witness :
  - LONG_MAX <= 1 <= LONG_MAX /\
  100000 <> 0 /\
  exists s,
    main_init_with 1 100000 reset_state = Some (tt, s) /\
    running s /\
    phaseInc s = 0.
Proof.
assert (Hf : - LONG_MAX <= 1 <= LONG_MAX) by (unfold LONG_MAX; lia).
assert (Ht : 100000 <> 0) by discriminate.
split; [exact Hf |]. split; [exact Ht |].
destruct (main_accepts_every_configuration 1 100000 Hf Ht)
  as ((s & Hrun & Hr & Hi & _) & _).
exists s. split; [exact Hrun |]. split; [exact Hr |].
rewrite Hi. reflexivity.
Defined.

(** C8, as stated, fails where the product [F_DDS_OUT * 65536] leaves the
    32-bit range in which it is formed.  For 40000 Hz at 100000 Hz, below
    half the tick rate, the stored increment is 48801; the realised
    frequency, 48801 * 100000 / 65536 (about 74464 Hz), is more than
    100000 / 65536 away from 40000.  The bound is stated multiplied by
    [2^16]. *)
Lemma quantization_bound_fails_on_overflow :
  exists s,
    main_init_with 40000 100000 reset_state = Some (tt, s) /\
    2 * 40000 < 100000 /\
    phaseInc s = 48801 /\
    ~ Z.abs (phaseInc s * 100000 - 40000 * 2 ^ 16) <= 100000.
Proof.
exists (mkState SINE_TABLE_init 0 48801 0 true).
repeat split. simpl. lia.
Qed.

(** C8, amended: for every output frequency [f] with [0 <= f < 32768], so
    that [f * 65536] fits the 32-bit arithmetic of the initialiser, and every
    tick rate [t] with [f < t / 2], the increment [d] stored by [main]
    satisfies [|d * t / 2^16 - f| <= t / 2^16]; the inequality is stated
    multiplied by [2^16], and the realised frequency never exceeds the
    requested one. *)
Theorem quantization_bound (f t : Z)
  (Hf : 0 <= f < 32768) (Hnyq : 2 * f < t) :
  exists s,
    main_init_with f t reset_state = Some (tt, s) /\
    Z.abs (phaseInc s * t - f * 2 ^ 16) <= t /\
    phaseInc s * t <= f * 2 ^ 16.
Proof.
assert (Ht : 0 < t) by lia.
eexists. split; [apply main_init_with_eq |]. simpl.
rewrite phaseInc_expr_floor by assumption.
change (2 ^ 16) with 65536.
pose proof (Z.mul_div_le (f * 65536) t Ht) as Hlo.
pose proof (Z.mul_succ_div_gt (f * 65536) t Ht) as Hhi.
assert (Hq : 0 <= f * 65536 / t < 65536).
{ split.
  - apply Z.div_pos; lia.
  - apply Z.div_lt_upper_bound; lia. }
rewrite Z.mod_small by exact Hq.
lia.
Qed.

(** The amended C8 at the macros of the source: 3276 * 50000 lies within
    50000 of 2500 * 65536. *)
Lemma quantization_bound_witness :
  0 <= F_DDS_OUT < 32768 /\ 2 * F_DDS_OUT < F_UPDATE /\
  exists s,
    main_init reset_state = Some (tt, s) /\
    Z.abs (phaseInc s * F_UPDATE - F_DDS_OUT * 2 ^ 16) <= F_UPDATE.
Proof.
assert (Hf : 0 <= F_DDS_OUT < 32768) by (unfold F_DDS_OUT; lia).
assert (Hn : 2 * F_DDS_OUT < F_UPDATE) by reflexivity.
split; [exact Hf |]. split; [exact Hn |].
destruct (quantization_bound F_DDS_OUT F_UPDATE Hf Hn) as (s & Hrun & Hb & _).
exists s. split; [exact Hrun | exact Hb].
Defined.

(** ** The sine table *)

(** A boolean property checked on [0 .. n-1] holds for every index of that
    range. *)
Lemma forall_below (P : Z -> bool) (n : nat) :
  forallb P (map Z.of_nat (seq 0 n)) = true ->
  forall i, 0 <= i < Z.of_nat n -> P i = true.
Proof.
intros Hall i Hi. rewrite forallb_forall in Hall. apply Hall.
apply in_map_iff. exists (Z.to_nat i). split; [lia |].
apply in_seq. lia.
Qed.

(** C3, as stated, fails already at index 0: the entries 0 and 128 of the
    table are 128 and 127, whose sum is 255 and not [2 * mid_scale = 256]. *)
Lemma table_not_symmetric_about_128 :
  table_at SINE_TABLE_init 0 = Some 128 /\
  table_at SINE_TABLE_init (256 / 2 + 0) = Some 127 /\
  128 + 127 <> 2 * mid_scale.
Proof.
repeat split. unfold mid_scale. lia.
Qed.

(** C3, amended: the table has 256 entries in the 8-bit range, entry 0 is
    the mid-scale value 128, and for every [i] in [0, 128) the entries [i]
    and [128 + i] add up to 255, that is [2 * mid_scale - 1]: the second half
    is the 8-bit complement of the first.  The index is a [uint8_t], so index
    arithmetic wraps modulo 256 and index 256 denotes entry 0; the array
    itself has no entry 256. *)
Theorem table_half_period_complement :
  length SINE_TABLE_init = 256%nat /\
  table_at SINE_TABLE_init 0 = Some mid_scale /\
  (forall i, 0 <= i < 256 / 2 ->
     exists a b,
       table_at SINE_TABLE_init i = Some a /\
       table_at SINE_TABLE_init (256 / 2 + i) = Some b /\
       0 <= a <= 255 /\ 0 <= b <= 255 /\
       a + b = 255 /\ a + b = 2 * mid_scale - 1) /\
  to_uint8 256 = 0 /\
  (forall i, table_at SINE_TABLE_init (to_uint8 (i + 256))
             = table_at SINE_TABLE_init (to_uint8 i)) /\
  table_at SINE_TABLE_init 256 = None.
Proof.
split; [reflexivity |]. split; [reflexivity |].
split; [| split; [reflexivity | split; [| reflexivity]]].
- change (256 / 2) with 128. intros i Hi.
  assert (Hchk : (half_period_sum_is 255 SINE_TABLE_init i
                  && match table_at SINE_TABLE_init i with
                     | Some a => (0 <=? a) && (a <=? 255)
                     | None => false
                     end)%bool = true).
  { apply (forall_below
             (fun j => (half_period_sum_is 255 SINE_TABLE_init j
                        && match table_at SINE_TABLE_init j with
                           | Some a => (0 <=? a) && (a <=? 255)
                           | None => false
                           end)%bool) 128).
    - vm_compute. reflexivity.
    - exact Hi. }
  apply andb_true_iff in Hchk. destruct Hchk as [Hsum Hrng].
  unfold half_period_sum_is in Hsum.
  destruct (table_at SINE_TABLE_init i) as [a |]; [| discriminate].
  destruct (table_at SINE_TABLE_init (128 + i)) as [b |]; [| discriminate].
  exists a, b. apply Z.eqb_eq in Hsum.
  apply andb_true_iff in Hrng. destruct Hrng as [Hlo Hhi].
  apply Z.leb_le in Hlo. apply Z.leb_le in Hhi.
  unfold mid_scale. repeat split; try reflexivity; lia.
- intro i. unfold to_uint8.
  replace (i + 256) with (i + 1 * 256) by lia.
  rewrite Z.mod_add by lia. reflexivity.
Qed.

(** The amended C3 at index 64, the crest: 255 and 0. *)
Lemma table_half_period_complement_witness :
  exists a b,
    table_at SINE_TABLE_init 64 = Some a /\
    table_at SINE_TABLE_init (256 / 2 + 64) = Some b /\
    a + b = 255.
Proof.
destruct table_half_period_complement as (_ & _ & Hsym & _).
destruct (Hsym 64) as (a & b & Ha & Hb & _ & _ & Hsum & _).
- split; [lia | reflexivity].
- exists a, b. split; [exact Ha |]. split; [exact Hb | exact Hsum].
Defined.

(** ** Periodicity of the phase register *)

Lemma advance_n_phase (n : nat) : forall s,
  0 <= phaseReg s < 65536 ->
  exists s',
    advance_n n s = Some (tt, s') /\
    phaseReg s' = (phaseReg s + Z.of_nat n * phaseInc s) mod 65536 /\
    phaseInc s' = phaseInc s /\
    SINE_TABLE s' = SINE_TABLE s.
Proof.
induction n as [| k IH]; intros s Hp.
- exists s. split; [reflexivity |]. split; [| split; reflexivity].
  simpl. rewrite Z.add_0_r. symmetry. now apply Z.mod_small.
- simpl advance_n. unfold bind. rewrite advance_eq.
  destruct (IH (set_phaseReg (uint16_add (phaseReg s) (phaseInc s)) s))
    as (s' & Hrun & Hph & Hinc & Htab).
  { simpl. apply to_uint16_range. }
  exists s'. split; [exact Hrun |]. simpl in Hph, Hinc, Htab.
  split; [| split; assumption].
  rewrite Hph. unfold uint16_add, to_uint16.
  rewrite Zplus_mod_idemp_l. f_equal. lia.
Qed.

(** The increment 3276 = 4 * 819 returns a 16-bit phase to its start exactly
    at the multiples of 16384 steps. *)
Lemma return_iff_multiple (p n : Z) :
  0 <= p < 65536 ->
  (p + n * 3276) mod 65536 = p <-> (16384 | n).
Proof.
intro Hp. split.
- intro Hret.
  pose proof (Z.div_mod (p + n * 3276) 65536 ltac:(lia)) as Hdm.
  rewrite Hret in Hdm.
  (* 819 * 12283 = 1 + 16384 * 614: multiply by the inverse of 819 *)
  exists (12283 * ((p + n * 3276) / 65536) - 614 * n). lia.
- intros [k Hk]. subst n.
  replace (p + k * 16384 * 3276) with (p + (k * 819) * 65536) by lia.
  rewrite Z.mod_add by lia. now apply Z.mod_small.
Qed.

(** C4, as stated, fails: from the state in which the idle loop is entered
    (phase 0, increment 3276), [round(65536 / 3276) = 20] executions of the
    advance leave the phase at 65520, not at 0. *)
Lemma phase_not_back_after_rounded_period :
  exists s',
    advance_n 20 started = Some (tt, s') /\
    Z.of_nat 20 = spec_period (phaseInc started) /\
    phaseReg s' = 65520 /\
    phaseReg s' <> phaseReg started.
Proof.
exists (mkState SINE_TABLE_init 65520 3276 0 true).
repeat split. simpl. discriminate.
Qed.

(** C4, amended: from a phase of the 16-bit range, [n] executions of the
    advance leave [(phase + n * phaseInc) mod 2^16].  With the increment
    stored by [main], 3276, the [round(2^16 / 3276) = 20] executions of the
    claim leave [(phase + 65520) mod 2^16], sixteen counts short of the start
    and never the start itself; the phase is back at its start exactly when
    [n] is a multiple of [2^16 / gcd(3276, 2^16) = 16384]. *)
Theorem advance_n_period (s : State) (n : nat)
  (Hp : 0 <= phaseReg s < 2 ^ 16) :
  exists s',
    advance_n n s = Some (tt, s') /\
    phaseReg s' = (phaseReg s + Z.of_nat n * phaseInc s) mod 2 ^ 16 /\
    (phaseInc s = phaseInc started ->
       (Z.of_nat n = spec_period (phaseInc s) ->
          phaseReg s' = (phaseReg s + 65520) mod 2 ^ 16 /\
          phaseReg s' = (phaseReg s - 16) mod 2 ^ 16 /\
          phaseReg s' <> phaseReg s) /\
       (phaseReg s' = phaseReg s <-> (2 ^ 16 / Z.gcd 3276 (2 ^ 16) | Z.of_nat n))).
Proof.
change (2 ^ 16 / Z.gcd 3276 (2 ^ 16)) with 16384.
change (2 ^ 16) with 65536 in *.
destruct (advance_n_phase n s Hp) as (s' & Hrun & Hph & _).
exists s'. split; [exact Hrun |]. split; [exact Hph |].
intro Hinc. change (phaseInc started) with 3276 in Hinc.
rewrite Hinc in *. split.
- change (spec_period 3276) with 20. intro Hn. rewrite Hn in Hph.
  change (20 * 3276) with 65520 in Hph.
  split; [exact Hph |]. split.
  + rewrite Hph.
    replace (phaseReg s + 65520) with (phaseReg s - 16 + 1 * 65536) by lia.
    now rewrite Z.mod_add by lia.
  + intro Heq. rewrite Heq in Hph. symmetry in Hph.
    change 65520 with (20 * 3276) in Hph.
    apply (return_iff_multiple (phaseReg s) 20 Hp) in Hph.
    destruct Hph as [k Hk]. lia.
- rewrite Hph. apply return_iff_multiple. exact Hp.
Qed.

(** The amended C4 from phase 0 with increment 3276: 16384 executions of the
    advance are defined and give phase 0 again. *)
Lemma advance_n_period_witness :
  0 <= phaseReg started < 2 ^ 16 /\
  exists s',
    advance_n (Z.to_nat 16384) started = Some (tt, s') /\
    phaseReg s' = phaseReg started.
Proof.
assert (Hp : 0 <= phaseReg started < 2 ^ 16) by (simpl; lia).
split; [exact Hp |].
destruct (advance_n_period started (Z.to_nat 16384) Hp) as (s' & Hrun & _ & Hcfg).
exists s'. split; [exact Hrun |].
destruct (Hcfg eq_refl) as (_ & Hback).
apply Hback. exists 1. reflexivity.
Defined.

(** ** The running program in closed form *)

(** A state is determined by its five components. *)
Lemma state_eq (a b : State) :
  SINE_TABLE a = SINE_TABLE b -> phaseReg a = phaseReg b ->
  phaseInc a = phaseInc b -> OCR0A a = OCR0A b -> SREG_I a = SREG_I b ->
  a = b.
Proof.
destruct a, b. simpl. intros. subst. reflexivity.
Qed.

Lemma ISR_output (s : State) :
  length (SINE_TABLE s) = 256%nat ->
  exists s',
    ISR_TIMER2_COMPA s = Some (tt, s') /\
    phaseReg s' = uint16_add (phaseReg s) (phaseInc s) /\
    SINE_TABLE s' = SINE_TABLE s /\
    phaseInc s' = phaseInc s /\
    SREG_I s' = SREG_I s /\
    table_at (SINE_TABLE s) (Z.shiftr (phaseReg s') 8) = Some (OCR0A s').
Proof.
intro Hlen. destruct (ISR_defined s Hlen) as (v & Hv & Hisr).
eexists. split; [exact Hisr |]. simpl. repeat split.
rewrite high_byte_small in Hv by apply to_uint16_range. exact Hv.
Qed.

(** The state after [n] interrupts in a row. *)
Lemma ticks_state (n : nat) : forall s,
  length (SINE_TABLE s) = 256%nat ->
  0 <= phaseReg s < 2 ^ 16 ->
  exists s',
    ticks n s = Some (tt, s') /\
    phaseReg s' = (phaseReg s + Z.of_nat n * phaseInc s) mod 2 ^ 16 /\
    SINE_TABLE s' = SINE_TABLE s /\
    phaseInc s' = phaseInc s /\
    SREG_I s' = SREG_I s /\
    (n = O -> OCR0A s' = OCR0A s) /\
    (n <> O ->
     table_at (SINE_TABLE s) (Z.shiftr (phaseReg s') 8) = Some (OCR0A s')).
Proof.
change (2 ^ 16) with 65536.
induction n as [| k IH]; intros s Hlen Hp.
- exists s. split; [reflexivity |].
  split; [simpl; rewrite Z.add_0_r; symmetry; now apply Z.mod_small |].
  repeat split. intro H. now elim H.
- destruct (ISR_output s Hlen) as (s1 & Hisr & Hp1 & Ht1 & Hi1 & Hf1 & Ho1).
  assert (Hlen1 : length (SINE_TABLE s1) = 256%nat) by (rewrite Ht1; exact Hlen).
  assert (Hr1 : 0 <= phaseReg s1 < 65536)
    by (rewrite Hp1; apply to_uint16_range).
  destruct (IH s1 Hlen1 Hr1) as (s' & Hrun & Hp' & Ht' & Hi' & Hf' & Ho0 & Ho').
  exists s'.
  split; [simpl; unfold bind; rewrite Hisr; exact Hrun |].
  split.
  { rewrite Hp', Hp1, Hi1. unfold uint16_add, to_uint16.
    rewrite Zplus_mod_idemp_l. f_equal. lia. }
  split; [congruence |]. split; [congruence |]. split; [congruence |].
  split; [discriminate |].
  intros _. destruct k as [| j].
  + rewrite (Ho0 eq_refl). rewrite Hp'. simpl Z.of_nat.
    rewrite Z.mul_0_l, Z.add_0_r, Z.mod_small by exact Hr1. exact Ho1.
  + rewrite <- Ht1. apply Ho'. discriminate.
Qed.



(** Two positive numbers of interrupts whose accumulated increments agree
    modulo [2^16] lead to the same state. *)
Lemma ticks_congruent (s : State) (n m : nat) :
  length (SINE_TABLE s) = 256%nat ->
  0 <= phaseReg s < 65536 ->
  n <> O -> m <> O ->
  (Z.of_nat n * phaseInc s) mod 65536 = (Z.of_nat m * phaseInc s) mod 65536 ->
  ticks n s = ticks m s.
Proof.
intros Hlen Hp Hn Hm Hcong.
destruct (ticks_state n s Hlen Hp)
  as (a & Ha & Hpa & Hta & Hia & Hfa & _ & Hoa).
destruct (ticks_state m s Hlen Hp)
  as (b & Hb & Hpb & Htb & Hib & Hfb & _ & Hob).
change (2 ^ 16) with 65536 in Hpa, Hpb.
assert (Hpab : phaseReg a = phaseReg b).
{ rewrite Hpa, Hpb.
  rewrite <- (Zplus_mod_idemp_r (Z.of_nat n * phaseInc s)).
  rewrite <- (Zplus_mod_idemp_r (Z.of_nat m * phaseInc s)).
  rewrite Hcong. reflexivity. }
specialize (Hoa Hn). specialize (Hob Hm). rewrite Hpab in Hoa.
rewrite Ha, Hb. f_equal. f_equal.
apply state_eq; congruence.
Qed.

(** X2: the generated sequence is exactly periodic.  Whatever the increment,
    from a state with a 256-entry table and a phase of the 16-bit range the
    state after [n + 65536] interrupts is the state after [n] interrupts
    ([n > 0]); and the running program, whose increment is 3276, already
    repeats after 16384 interrupts. *)
Theorem output_periodic :
  (forall s n,
     length (SINE_TABLE s) = 256%nat ->
     0 <= phaseReg s < 2 ^ 16 ->
     n <> O ->
     ticks (n + Z.to_nat 65536) s = ticks n s) /\
  (forall n, n <> O -> program (n + Z.to_nat 16384) = program n).
Proof.
split.
- intros s n Hlen Hp Hn. change (2 ^ 16) with 65536 in Hp.
  apply ticks_congruent; try assumption; [lia |].
  rewrite Nat2Z.inj_add, Z2Nat.id by lia.
  replace ((Z.of_nat n + 65536) * phaseInc s)
    with (Z.of_nat n * phaseInc s + phaseInc s * 65536) by lia.
  apply Z.mod_add. lia.
- intros n Hn. rewrite !program_eq.
  apply ticks_congruent; try assumption;
    [reflexivity | simpl; lia | lia |].
  rewrite Nat2Z.inj_add, Z2Nat.id by lia.
  change (phaseInc started) with 3276.
  replace ((Z.of_nat n + 16384) * 3276)
    with (Z.of_nat n * 3276 + 819 * 65536) by lia.
  apply Z.mod_add. lia.
Qed.

(** X2 at the first interrupt of the running program. *)
Lemma output_periodic_witness :
  program (1 + Z.to_nat 16384) = program 1.
Proof.
destruct output_periodic as (_ & Hprog).
apply (Hprog 1%nat). discriminate.
Defined.



(** ** Stride of the table index *)

Lemma high_byte_of_sum (p d : Z) :
  0 <= p < 65536 -> 0 <= d < 65536 ->
  ((p + d) mod 65536) / 256
  = (p / 256 + d / 256 + (p mod 256 + d mod 256) / 256) mod 256.
Proof.
intros Hp Hd. Z.to_euclidean_division_equations. lia.
Qed.

(** X4: one interrupt moves the table index by the upper byte of the
    increment, or by one more when the lower bytes of phase and increment
    carry, modulo 256.  On a state of the typed range, with [i] the index
    before and [i'] the index after the interrupt,
    [i' = (i + (phaseInc >> 8) + c) mod 256] with [c] the carry, 0 or 1. *)
Theorem index_stride (s : State) (Hwf : wf_state s) :
  exists s' i i' c,
    ISR_TIMER2_COMPA s = Some (tt, s') /\
    index s = Some (i, s) /\
    index s' = Some (i', s') /\
    c = (phaseReg s mod 256 + phaseInc s mod 256) / 256 /\
    (c = 0 \/ c = 1) /\
    i' = (i + Z.shiftr (phaseInc s) 8 + c) mod 256.
Proof.
destruct Hwf as (Hlen & Hp & Hd).
destruct (ISR_output s Hlen) as (s' & Hisr & Hp' & _).
assert (Hr' : 0 <= phaseReg s' < 65536) by (rewrite Hp'; apply to_uint16_range).
exists s', (Z.shiftr (phaseReg s) 8), (Z.shiftr (phaseReg s') 8),
  ((phaseReg s mod 256 + phaseInc s mod 256) / 256).
split; [exact Hisr |].
split; [rewrite index_eq, high_byte_small by exact Hp; reflexivity |].
split; [rewrite index_eq, high_byte_small by exact Hr'; reflexivity |].
split; [reflexivity |].
split.
- pose proof (Z.mod_pos_bound (phaseReg s) 256 ltac:(lia)).
  pose proof (Z.mod_pos_bound (phaseInc s) 256 ltac:(lia)).
  Z.to_euclidean_division_equations. lia.
- rewrite !Z.shiftr_div_pow2 by lia. change (2 ^ 8) with 256.
  rewrite Hp'. unfold uint16_add, to_uint16.
  apply high_byte_of_sum; assumption.
Qed.

(** X4 on the running program: the first interrupt moves the index from 0
    to 12. *)
Lemma index_stride_witness :
  wf_state started /\
  exists s' i',
    ISR_TIMER2_COMPA started = Some (tt, s') /\
    index s' = Some (i', s') /\
    i' = 12.
Proof.
assert (Hwf : wf_state started) by (unfold wf_state; simpl; repeat split; lia).
split; [exact Hwf |].
destruct (index_stride started Hwf)
  as (s' & i & i' & c & Hisr & Hi & Hi' & Hc & _ & Hstep).
exists s', i'. split; [exact Hisr |]. split; [exact Hi' |].
rewrite Hstep, Hc. simpl in Hi. injection Hi as <-. reflexivity.
Defined.

(** ** Typing invariant *)

Lemma SINE_TABLE_init_bytes : Forall (fun v => 0 <= v <= 255) SINE_TABLE_init.
Proof.
apply Forall_forall. intros v Hin.
assert (Hall : forallb (fun v => (0 <=? v) && (v <=? 255)) SINE_TABLE_init = true)
  by (vm_compute; reflexivity).
rewrite forallb_forall in Hall. specialize (Hall v Hin).
apply andb_true_iff in Hall. destruct Hall as [Hlo Hhi].
apply Z.leb_le in Hlo. apply Z.leb_le in Hhi. lia.
Qed.

Lemma table_at_In (t : list Z) (i v : Z) : table_at t i = Some v -> In v t.
Proof.
unfold table_at. destruct (i <? 0); [discriminate |]. apply nth_error_In.
Qed.

Lemma ISR_typed (s : State) :
  typed_state s ->
  exists s', ISR_TIMER2_COMPA s = Some (tt, s') /\ typed_state s'.
Proof.
intros ((Hlen & Hp & Hd) & Ho & Hbytes).
destruct (ISR_output s Hlen) as (s' & Hisr & Hp' & Ht' & Hi' & _ & Hout).
exists s'. split; [exact Hisr |].
unfold typed_state, wf_state. rewrite Ht', Hi', Hp'.
split; [split; [exact Hlen | split; [apply to_uint16_range | exact Hd]] |].
split; [| exact Hbytes].
apply table_at_In in Hout.
rewrite Forall_forall in Hbytes. apply (Hbytes _ Hout).
Qed.

Lemma ticks_typed (n : nat) : forall s,
  typed_state s -> exists s', ticks n s = Some (tt, s') /\ typed_state s'.
Proof.
induction n as [| k IH]; intros s Hty.
- exists s. split; [reflexivity | exact Hty].
- destruct (ISR_typed s Hty) as (s1 & Hisr & Hty1).
  destruct (IH s1 Hty1) as (s' & Hrun & Hty').
  exists s'. split; [| exact Hty'].
  simpl. unfold bind. rewrite Hisr. exact Hrun.
Qed.

(** X5: every value the program stores stays in the range of its C type.
    The interrupt handler completes on every typed state and leaves a typed
    state; [main], for every output frequency of the [long] range and every
    non-zero tick rate, enters the idle loop in a typed state; hence after
    any number of interrupts of the running program the table is intact, the
    phase and the increment are 16-bit values and OCR0A is a value of
    0..255. *)
Theorem typed_state_invariant :
  (forall s, typed_state s ->
     exists s', ISR_TIMER2_COMPA s = Some (tt, s') /\ typed_state s') /\
  (forall f t, - LONG_MAX <= f <= LONG_MAX -> t <> 0 ->
     exists s,
       main_init_with f t reset_state = Some (tt, s) /\ typed_state s) /\
  (forall n, exists s, program n = Some (tt, s) /\ typed_state s).
Proof.
assert (Hmain : forall f t,
          typed_state (mkState SINE_TABLE_init 0 (phaseInc_expr f t) 0 true)).
{ intros f t. unfold typed_state, wf_state. simpl.
  pose proof (to_uint16_range (long_div (long_mul f 65536) t)) as Hr.
  unfold phaseInc_expr.
  repeat split; try lia; apply SINE_TABLE_init_bytes. }
split; [exact ISR_typed |]. split.
- intros f t _ _. eexists. split; [apply main_init_with_eq | apply Hmain].
- intro n. rewrite program_eq. apply ticks_typed.
  apply (Hmain F_DDS_OUT F_UPDATE).
Qed.

(** X5 on the state in which the idle loop is entered. *)
Lemma typed_state_invariant_witness :
  typed_state started /\
  exists s', ISR_TIMER2_COMPA started = Some (tt, s') /\ typed_state s'.
Proof.
destruct typed_state_invariant as (Hisr & Hmain & _).
destruct (Hmain F_DDS_OUT F_UPDATE) as (s & Hrun & Hty).
- unfold F_DDS_OUT, LONG_MAX. lia.
- discriminate.
- assert (Hs : s = started).
  { rewrite main_init_with_eq in Hrun. injection Hrun as <-. reflexivity. }
  rewrite Hs in Hty. split; [exact Hty |]. apply Hisr. exact Hty.
Defined.

(** ** The increment at the Nyquist limit *)

Lemma opposite_entries_complement (i : Z) :
  0 <= i < 256 ->
  exists a b,
    table_at SINE_TABLE_init i = Some a /\
    table_at SINE_TABLE_init ((i + 128) mod 256) = Some b /\
    a + b = 255.
Proof.
intro Hi.
assert (Hchk : opposite_is_complement SINE_TABLE_init i = true).
{ apply (forall_below (opposite_is_complement SINE_TABLE_init) 256).
  - vm_compute. reflexivity.
  - exact Hi. }
unfold opposite_is_complement in Hchk.
destruct (table_at SINE_TABLE_init i) as [a |]; [| discriminate].
destruct (table_at SINE_TABLE_init ((i + 128) mod 256)) as [b |];
  [| discriminate].
exists a, b. apply Z.eqb_eq in Hchk. repeat split. exact Hchk.
Qed.

Lemma half_turn_index (p : Z) :
  0 <= p < 65536 ->
  Z.shiftr ((p + 32768) mod 65536) 8 = (Z.shiftr p 8 + 128) mod 256.
Proof.
intro Hp. rewrite !Z.shiftr_div_pow2 by lia. change (2 ^ 8) with 256.
Z.to_euclidean_division_equations. lia.
Qed.

(** X6: with the increment 32768, half the phase range, the output toggles
    between two values that add up to 255.  From a phase [p] of the 16-bit
    range, with [a] the table entry selected by [p] and [b] the one selected
    by [p + 32768], after an even positive number of interrupts the phase is
    [p] and OCR0A is [a]; after an odd number the phase is
    [(p + 32768) mod 2^16] and OCR0A is [b]. *)
Theorem nyquist_increment_toggles (s : State) (n : nat)
  (Htab : SINE_TABLE s = SINE_TABLE_init)
  (Hp : 0 <= phaseReg s < 2 ^ 16)
  (Hinc : phaseInc s = 32768)
  (Hn : n <> O) :
  exists a b s',
    table_at SINE_TABLE_init (Z.shiftr (phaseReg s) 8) = Some a /\
    table_at SINE_TABLE_init (Z.shiftr ((phaseReg s + 32768) mod 2 ^ 16) 8)
      = Some b /\
    a + b = 255 /\
    ticks n s = Some (tt, s') /\
    phaseReg s' = (if Nat.even n then phaseReg s
                   else (phaseReg s + 32768) mod 2 ^ 16) /\
    OCR0A s' = (if Nat.even n then a else b).
Proof.
change (2 ^ 16) with 65536 in *.
assert (Hlen : length (SINE_TABLE s) = 256%nat) by (rewrite Htab; reflexivity).
destruct (opposite_entries_complement (Z.shiftr (phaseReg s) 8))
  as (a & b & Ha & Hb & Hsum); [apply shiftr8_range, Hp |].
rewrite <- half_turn_index in Hb by exact Hp.
destruct (ticks_state n s Hlen Hp)
  as (s' & Hrun & Hp' & _ & _ & _ & _ & Ho).
specialize (Ho Hn). change (2 ^ 16) with 65536 in Hp'.
rewrite Htab in Ho. rewrite Hinc in Hp'.
exists a, b, s'.
split; [exact Ha |]. split; [exact Hb |]. split; [exact Hsum |].
split; [exact Hrun |].
assert (Hphase : phaseReg s' = if Nat.even n then phaseReg s
                               else (phaseReg s + 32768) mod 65536).
{ rewrite Hp'. destruct (Nat.even n) eqn:Hev.
  - apply Nat.even_spec in Hev. destruct Hev as [k Hk].
    replace (phaseReg s + Z.of_nat n * 32768)
      with (phaseReg s + Z.of_nat k * 65536) by lia.
    rewrite Z.mod_add by lia. now apply Z.mod_small.
  - assert (Hodd : Nat.odd n = true) by (unfold Nat.odd; rewrite Hev; reflexivity).
    apply Nat.odd_spec in Hodd. destruct Hodd as [k Hk].
    replace (phaseReg s + Z.of_nat n * 32768)
      with (phaseReg s + 32768 + Z.of_nat k * 65536) by lia.
    now rewrite Z.mod_add by lia. }
split; [exact Hphase |].
rewrite Hphase in Ho.
destruct (Nat.even n); congruence.
Qed.

(** X6 for the configuration 25000 Hz at 50000 Hz, whose increment is
    32768: starting from phase 0 the output toggles between 127 and 128. *)
Lemma nyquist_increment_toggles_witness :
  phaseInc_expr 25000 50000 = 32768 /\
  exists s1 s2,
    (main_init_with 25000 50000 ;;; ticks 1) reset_state = Some (tt, s1) /\
    (main_init_with 25000 50000 ;;; ticks 2) reset_state = Some (tt, s2) /\
    OCR0A s1 = 127 /\ OCR0A s2 = 128.
Proof.
split; [reflexivity |].
assert (Hp : 0 <= phaseReg (mkState SINE_TABLE_init 0 32768 0 true) < 2 ^ 16)
  by (simpl; lia).
destruct (nyquist_increment_toggles (mkState SINE_TABLE_init 0 32768 0 true)
            1 eq_refl Hp eq_refl)
  as (a1 & b1 & s1 & Ha1 & Hb1 & _ & Hrun1 & _ & Ho1); [discriminate |].
destruct (nyquist_increment_toggles (mkState SINE_TABLE_init 0 32768 0 true)
            2 eq_refl Hp eq_refl)
  as (a2 & b2 & s2 & Ha2 & _ & _ & Hrun2 & _ & Ho2); [discriminate |].
exists s1, s2.
split; [exact Hrun1 |]. split; [exact Hrun2 |].
simpl in Ho1, Ho2. vm_compute in Hb1, Ha2.
injection Hb1 as <-. injection Ha2 as <-.
split; [exact Ho1 | exact Ho2].
Defined.

(** ** The increment as a function of the two frequencies *)

Lemma phaseInc_expr_below_tick (f t : Z) :
  0 <= f < 32768 -> f < t ->
  phaseInc_expr f t = (f * 65536) / t /\ 0 <= (f * 65536) / t < 65536.
Proof.
intros Hf Hft.
assert (Hq : 0 <= f * 65536 / t < 65536).
{ split.
  - apply Z.div_pos; lia.
  - apply Z.div_lt_upper_bound; lia. }
split; [| exact Hq].
rewrite phaseInc_expr_floor by lia. now apply Z.mod_small.
Qed.

(** X7: the lowest representable frequency.  For an output frequency [f]
    with [0 <= f < 32768] below the tick rate [t], the increment computed by
    [main] is zero exactly when [f * 65536 < t], that is when [f] is below
    [t / 65536]. *)
Theorem increment_zero_iff (f t : Z)
  (Hf : 0 <= f < 32768) (Hft : f < t) :
  phaseInc_expr f t = 0 <-> f * 65536 < t.
Proof.
destruct (phaseInc_expr_below_tick f t Hf Hft) as (-> & _).
rewrite Z.div_small_iff by lia. lia.
Qed.

(** X7 at the macros of the source: 2500 * 65536 is not below 50000, and
    the increment is not zero. *)
Lemma increment_zero_iff_witness :
  phaseInc_expr F_DDS_OUT F_UPDATE <> 0.
Proof.
intro Hz.
apply (increment_zero_iff F_DDS_OUT F_UPDATE) in Hz.
- unfold F_DDS_OUT, F_UPDATE in Hz. lia.
- unfold F_DDS_OUT. lia.
- reflexivity.
Defined.

(** X8: the increment grows with the requested frequency.  For two output
    frequencies [0 <= f1 <= f2 < 32768] below the tick rate [t], the
    increment computed for [f1] is at most the one computed for [f2]. *)
Theorem increment_monotone (f1 f2 t : Z)
  (H1 : 0 <= f1 <= f2) (H2 : f2 < 32768) (Hft : f2 < t) :
  phaseInc_expr f1 t <= phaseInc_expr f2 t.
Proof.
destruct (phaseInc_expr_below_tick f1 t) as (-> & _); [lia | lia |].
destruct (phaseInc_expr_below_tick f2 t) as (-> & _); [lia | lia |].
apply Z.div_le_mono; lia.
Qed.

(** X8 for 1000 Hz and 2500 Hz at 50000 Hz: 1310 and 3276. *)
Lemma increment_monotone_witness :
  phaseInc_expr 1000 F_UPDATE <= phaseInc_expr F_DDS_OUT F_UPDATE.
Proof.
apply (increment_monotone 1000 F_DDS_OUT F_UPDATE);
  unfold F_DDS_OUT, F_UPDATE; lia.
Defined.

(** X9: no quantisation error on exact quotients.  For an output frequency
    [f] with [0 <= f < 32768] below the tick rate [t], when [t] divides
    [f * 65536] the increment [d] computed by [main] satisfies
    [d * t = f * 65536]: the realised frequency [d * t / 65536] is [f]. *)
Theorem increment_exact_when_divisible (f t : Z)
  (Hf : 0 <= f < 32768) (Hft : f < t) (Hdiv : (t | f * 65536)) :
  phaseInc_expr f t * t = f * 65536.
Proof.
destruct (phaseInc_expr_below_tick f t Hf Hft) as (-> & _).
destruct Hdiv as [k Hk]. rewrite Hk.
rewrite Z.div_mul by lia. reflexivity.
Qed.

(** X9 for 3125 Hz at 50000 Hz: the increment is 4096, one table period in
    16 interrupts. *)
Lemma increment_exact_when_divisible_witness :
  phaseInc_expr 3125 50000 = 4096 /\
  phaseInc_expr 3125 50000 * 50000 = 3125 * 65536.
Proof.
split; [reflexivity |].
apply (increment_exact_when_divisible 3125 50000); [lia | lia |].
exists 4096. reflexivity.
Defined.

(** X10: frequencies one tick rate apart are indistinguishable.  For
    [0 <= f], [0 < t] and [f + t < 32768], the increment computed for
    [f + t] is the one computed for [f], because the quotient is reduced to
    16 bits; in particular an output frequency equal to the tick rate
    yields the increment zero. *)
Theorem increment_aliases (f t : Z)
  (Hf : 0 <= f) (Ht : 0 < t) (Hsum : f + t < 32768) :
  phaseInc_expr (f + t) t = phaseInc_expr f t /\
  phaseInc_expr t t = 0.
Proof.
assert (Hshift : forall g, 0 <= g -> g + t < 32768 ->
          phaseInc_expr (g + t) t = phaseInc_expr g t).
{ intros g Hg Hgt.
  rewrite !phaseInc_expr_floor by lia.
  replace ((g + t) * 65536) with (g * 65536 + 65536 * t) by lia.
  rewrite Z.div_add by lia.
  replace (g * 65536 / t + 65536) with (g * 65536 / t + 1 * 65536) by lia.
  apply Z.mod_add. lia. }
split; [apply Hshift; assumption |].
replace t with (0 + t) at 1 by lia.
rewrite Hshift by lia.
rewrite phaseInc_expr_floor by lia. reflexivity.
Qed.

(** X10 for 12500 Hz and 2500 Hz at 10000 Hz: both give 16384. *)
Lemma increment_aliases_witness :
  phaseInc_expr 12500 10000 = phaseInc_expr 2500 10000 /\
  phaseInc_expr 2500 10000 = 16384.
Proof.
split; [| reflexivity].
destruct (increment_aliases 2500 10000) as (Halias & _); [lia | lia | lia |].
exact Halias.
Defined.

(** ** Peripheral set-up *)

Lemma testbit_BV (b k : Z) : 0 <= b -> Z.testbit (BV b) k = (k =? b).
Proof.
intro Hb. unfold BV. rewrite Z.shiftl_1_l, Z.pow2_bits_eqb by exact Hb.
apply Z.eqb_sym.
Qed.

Lemma testbit_uint8 (x k : Z) :
  Z.testbit (to_uint8 x) k = (k <? 8) && Z.testbit x k.
Proof.
unfold to_uint8. change 256 with (2 ^ 8).
destruct (Z.ltb_spec k 8) as [Hlt | Hge].
- rewrite Z.mod_pow2_bits_low by exact Hlt. reflexivity.
- rewrite Z.mod_pow2_bits_high by lia. reflexivity.
Qed.

Lemma OCR2A_expr_quotient (f_cpu f_update : Z) :
  0 <= f_cpu <= LONG_MAX -> 0 < f_update ->
  OCR2A_expr f_cpu f_update = (f_cpu / 8 / f_update - 1) mod 256.
Proof.
unfold LONG_MAX. intros Hc Hu.
unfold OCR2A_expr, long_div, to_uint8.
rewrite (Z.quot_div_nonneg f_cpu 8) by lia.
assert (H8 : 0 <= f_cpu / 8 <= f_cpu).
{ split; [apply Z.div_pos; lia | apply Z.div_le_upper_bound; lia]. }
rewrite (to_long_small (f_cpu / 8)) by (unfold LONG_MIN, LONG_MAX; lia).
rewrite Z.quot_div_nonneg by lia.
assert (Hq : 0 <= f_cpu / 8 / f_update <= f_cpu / 8).
{ split; [apply Z.div_pos; lia | apply Z.div_le_upper_bound; nia]. }
rewrite (to_long_small (f_cpu / 8 / f_update))
  by (unfold LONG_MIN, LONG_MAX; lia).
rewrite to_long_small by (unfold LONG_MIN, LONG_MAX; lia).
reflexivity.
Qed.

(** X11: the compare value loaded into OCR2A makes Timer 2, clocked by
    [F_CPU / 8], count [OCR2A + 1] clocks per interrupt.  For a clock
    [f_cpu] of the [long] range and an update frequency [f_update] with
    [8 * f_update <= f_cpu < 2056 * f_update], the stored value [c] is in
    0..255 and [8 * f_update * (c + 1) <= f_cpu < 8 * f_update * (c + 2)],
    so the interrupt rate [f_cpu / (8 * (c + 1))] is not below [f_update];
    when [8 * f_update] divides [f_cpu] it is exactly [f_update]. *)
Theorem timer_compare_value (io : IoBits) (f_cpu f_update : Z) (p : Periph)
  (Hu : 0 < f_update)
  (Hlo : 8 * f_update <= f_cpu)
  (Hhi : f_cpu < 2056 * f_update)
  (Hlong : f_cpu <= LONG_MAX) :
  let c := OCR2A (main_peripherals io f_cpu f_update p) in
  0 <= c <= 255 /\
  8 * f_update * (c + 1) <= f_cpu < 8 * f_update * (c + 2) /\
  ((8 * f_update | f_cpu) -> 8 * f_update * (c + 1) = f_cpu).
Proof.
cbv zeta. unfold main_peripherals. cbn [OCR2A].
rewrite OCR2A_expr_quotient by lia.
assert (Hq : 1 <= f_cpu / 8 / f_update <= 256).
{ rewrite Z.div_div by lia. split.
  - apply Z.div_le_lower_bound; lia.
  - apply Z.lt_succ_r. apply Z.div_lt_upper_bound; lia. }
rewrite Z.mod_small by lia.
rewrite Z.div_div in * by lia.
pose proof (Z.mul_div_le f_cpu (8 * f_update) ltac:(lia)) as Hle.
pose proof (Z.mul_succ_div_gt f_cpu (8 * f_update) ltac:(lia)) as Hgt.
split; [lia |]. split; [lia |].
intros [k Hk]. rewrite Hk, Z.div_mul by lia. lia.
Qed.

(** X11 for a 16 MHz clock and the update frequency of the source: the
    compare value is 39, as the comment in [main] says, and 320 * 50000 is
    16000000. *)
Lemma timer_compare_value_witness :
  OCR2A (main_peripherals atmega328p 16000000 F_UPDATE
           (mkPeriph 0 0 0 0 0 0 0)) = 39 /\
  8 * F_UPDATE * (OCR2A (main_peripherals atmega328p 16000000 F_UPDATE
                           (mkPeriph 0 0 0 0 0 0 0)) + 1) = 16000000.
Proof.
split; [reflexivity |].
assert (Hu : 0 < F_UPDATE) by reflexivity.
assert (Hlo : 8 * F_UPDATE <= 16000000) by (unfold F_UPDATE; lia).
assert (Hhi : 16000000 < 2056 * F_UPDATE) by reflexivity.
assert (Hlong : 16000000 <= LONG_MAX) by (unfold LONG_MAX; lia).
destruct (timer_compare_value atmega328p 16000000 F_UPDATE
            (mkPeriph 0 0 0 0 0 0 0) Hu Hlo Hhi Hlong) as (_ & _ & Hexact).
apply Hexact. exists 40. reflexivity.
Defined.

(** X12: an update frequency above [F_CPU / 8] is not representable.  For a
    clock [f_cpu] of the [long] range with [f_cpu < 8 * f_update], the
    quotient is 0 and the subtraction wraps in the 8-bit register: OCR2A is
    loaded with 255, the longest period of the timer. *)
Theorem timer_compare_value_wraps (io : IoBits) (f_cpu f_update : Z)
  (p : Periph)
  (Hc : 0 <= f_cpu <= LONG_MAX)
  (Hfast : f_cpu < 8 * f_update) :
  OCR2A (main_peripherals io f_cpu f_update p) = 255.
Proof.
simpl. rewrite OCR2A_expr_quotient by lia.
rewrite Z.div_div by lia.
rewrite Z.div_small by lia. reflexivity.
Qed.

(** X12 for a 16 MHz clock and an update frequency of 4 MHz. *)
Lemma timer_compare_value_wraps_witness :
  OCR2A (main_peripherals atmega328p 16000000 4000000
           (mkPeriph 0 0 0 0 0 0 0)) = 255.
Proof.
apply (timer_compare_value_wraps atmega328p 16000000 4000000);
  unfold LONG_MAX; lia.
Defined.

(** X13: [main] only adds output pins.  With both pin numbers in 0..7 and
    DDRD an 8-bit value, after the read-modify-write of line 81 a bit of
    DDRD is set exactly when it was set before or is one of PORTD6 and
    PORTD5: no direction bit is cleared and no other bit is set. *)
Theorem ddrd_sets_only_output_pins (io : IoBits) (f_cpu f_update : Z)
  (p : Periph) (k : Z)
  (H6 : 0 <= PORTD6 io < 8) (H5 : 0 <= PORTD5 io < 8)
  (Hd : 0 <= DDRD p < 256) :
  Z.testbit (DDRD (main_peripherals io f_cpu f_update p)) k
  = Z.testbit (DDRD p) k || (k =? PORTD6 io) || (k =? PORTD5 io).
Proof.
simpl. rewrite testbit_uint8, !Z.lor_spec, !testbit_BV by lia.
destruct (Z.ltb_spec k 8) as [Hlt | Hge].
- simpl. now rewrite orb_assoc.
- simpl.
  replace (DDRD p) with (to_uint8 (DDRD p)) by (now apply to_uint8_small).
  rewrite testbit_uint8.
  destruct (Z.ltb_spec k 8) as [Hlt | _]; [lia |].
  destruct (Z.eqb_spec k (PORTD6 io)) as [E6 | _]; [lia |].
  destruct (Z.eqb_spec k (PORTD5 io)) as [E5 | _]; [lia |].
  reflexivity.
Qed.

(** X13 on the ATmega328P with pin 2 already an output: DDRD goes from
    0x04 to 0x64, and bit 2 is still set. *)
Lemma ddrd_sets_only_output_pins_witness :
  DDRD (main_peripherals atmega328p 16000000 F_UPDATE
          (mkPeriph 4 0 0 0 0 0 0)) = 100 /\
  Z.testbit (DDRD (main_peripherals atmega328p 16000000 F_UPDATE
                     (mkPeriph 4 0 0 0 0 0 0))) 2 = true.
Proof.
split; [reflexivity |].
rewrite (ddrd_sets_only_output_pins atmega328p 16000000 F_UPDATE
           (mkPeriph 4 0 0 0 0 0 0) 2).
- reflexivity.
- simpl. lia.
- simpl. lia.
- simpl. lia.
Defined.

(** ** Shape of the sine table *)

(** X14: the table holds one smooth, single-crested period.  For every index
    [i] of 0..255 the entry is a value of 0..255 and differs from its cyclic
    successor (entry 0 after entry 255) by at most 4; the entries do not
    decrease from index 192 through the wrap to index 64 and do not increase
    from index 64 to index 192; and each half period is mirror symmetric:
    entry [i] equals entry [128 - i] for [1 <= i <= 127] and entry
    [384 - i] for [129 <= i <= 255]. *)
Theorem sine_table_shape (i : Z) (Hi : 0 <= i < 256) :
  0 <= entry SINE_TABLE_init i <= 255 /\
  Z.abs (entry SINE_TABLE_init ((i + 1) mod 256) - entry SINE_TABLE_init i) <= 4 /\
  (i < 64 \/ 192 <= i ->
   entry SINE_TABLE_init i <= entry SINE_TABLE_init ((i + 1) mod 256)) /\
  (64 <= i < 192 ->
   entry SINE_TABLE_init ((i + 1) mod 256) <= entry SINE_TABLE_init i) /\
  (1 <= i <= 127 -> entry SINE_TABLE_init i = entry SINE_TABLE_init (128 - i)) /\
  (129 <= i <= 255 -> entry SINE_TABLE_init i = entry SINE_TABLE_init (384 - i)).
Proof.
assert (Hchk : (sine_shaped_at SINE_TABLE_init i
                && ((0 <=? entry SINE_TABLE_init i)
                    && (entry SINE_TABLE_init i <=? 255)))%bool = true).
{ apply (forall_below
           (fun j => (sine_shaped_at SINE_TABLE_init j
                      && ((0 <=? entry SINE_TABLE_init j)
                          && (entry SINE_TABLE_init j <=? 255)))%bool) 256).
  - vm_compute. reflexivity.
  - exact Hi. }
unfold sine_shaped_at in Hchk.
set (a := entry SINE_TABLE_init i) in *.
set (b := entry SINE_TABLE_init ((i + 1) mod 256)) in *.
set (c := entry SINE_TABLE_init (128 - i)) in *.
set (d := entry SINE_TABLE_init (384 - i)) in *.
cbv zeta in Hchk.
repeat match goal with
       | H : (_ && _)%bool = true |- _ =>
           apply andb_true_iff in H; destruct H
       end.
repeat match goal with
       | H : (_ <=? _) = true |- _ => apply Z.leb_le in H
       end.
destruct (Z.ltb_spec i 64); destruct (Z.leb_spec 192 i);
  destruct (Z.leb_spec 1 i); destruct (Z.leb_spec i 127);
  destruct (Z.leb_spec 129 i); destruct (Z.leb_spec i 255);
  simpl in *;
  repeat match goal with
         | H : (_ <=? _) = true |- _ => apply Z.leb_le in H
         | H : (_ =? _) = true |- _ => apply Z.eqb_eq in H
         end;
  repeat split; intros; try lia.
Qed.

(** X14 at the wrap from the last entry to the first: 124 and 128. *)
Lemma sine_table_shape_witness :
  entry SINE_TABLE_init 255 = 124 /\
  entry SINE_TABLE_init 0 = 128 /\
  entry SINE_TABLE_init 255 <= entry SINE_TABLE_init ((255 + 1) mod 256).
Proof.
split; [reflexivity |]. split; [reflexivity |].
destruct (sine_table_shape 255) as (_ & _ & Hrise & _); [lia |].
apply Hrise. right. lia.
Defined.
